(** * hanapy: Boost.Hana driven generation of pybind11 bindings

    A shallow embedding of [hanapy.cpp].  The translation unit consists of a
    few aggregate declarations and of the body of [PYBIND11_MODULE(hanapy, m)],
    which runs once when the host runtime imports the module.  The model has
    four layers, one module each:

    - [cpp]  : the C++ types named by the file, their values and the
               aggregates it declares;
    - [hana] : the Boost.Hana operations the file calls (struct introspection,
               [transform], [unpack], [fold], [for_each],
               [cartesian_product]) on lists standing for hana tuples;
    - [py]   : the pybind11 registration operations the file calls
               ([class_], [def], [def_readwrite], [init]) as functions on an
               explicit module state, in an error monad, together with the
               host-side protocol for calling what was registered;
    - [hanapy] : the module body itself, statement by statement. *)

From stdpp Require Import gmap strings list.

Local Open Scope string_scope.
Local Open Scope Z_scope.

(** ** Exceptions

    A C++ exception thrown by a registration call leaves every enclosing
    loop and the module body; it is modelled by an error monad. *)

Inductive result (E A : Type) :=
  | Ok (a : A)
  | Raise (e : E).
Arguments Ok {E A} a.
Arguments Raise {E A} e.

Definition bind {E A B} (r : result E A) (k : A → result E B) : result E B :=
  match r with
  | Ok a => k a
  | Raise e => Raise e
  end.

Notation "x <-! r ;; k" := (bind r (λ x, k))
  (at level 100, r at next level, right associativity,
   format "'[v' x  <-!  r  ;;  '/' k ']'").

Definition succeeds {E A} (r : result E A) : Prop := ∃ a, r = Ok a.

(** ** C++ types, values and aggregates *)

Module cpp.

(** The types that occur in the translation unit.  [TensorOld] and [Tensor]
    are the two class templates [template <int D, typename T>]; two
    instantiations are the same type exactly when both arguments agree. *)
Inductive type :=
  | int32_t
  | float
  | double
  | std_vector (T : type)
  | SomePacketOld
  | AnotherPacketOld
  | SomePacket
  | AnotherPacket
  | TensorOld (D : Z) (T : type)
  | Tensor (D : Z) (T : type).

#[global] Instance type_eq_dec : EqDecision type.
Proof. solve_decision. Defined.

(** Values of the member types.  A [float] or [double] is only stored and
    copied by this program, never computed with, so it is carried as its bit
    pattern. *)
#[warnings="-register-all"]
Inductive value :=
  | v_int32 (n : Z)
  | v_float (bits : Z)
  | v_double (bits : Z)
  | v_vector (T : type) (xs : list value).

(** [decltype(v)] for a value held in a by-value variable. *)
Definition decltype (v : value) : type :=
  match v with
  | v_int32 _ => int32_t
  | v_float _ => float
  | v_double _ => double
  | v_vector T _ => std_vector T
  end.

(** A declared data member: [(type, name)], as in the declaration lists. *)
Record member := { m_type : type; m_name : string }.

(** The data members of the four aggregates, in declaration order. *)
Definition members_of (P : type) : list member :=
  match P with
  | SomePacketOld =>
      [ {| m_type := int32_t; m_name := "id" |};
        {| m_type := float; m_name := "some_payload" |} ]
  | AnotherPacketOld =>
      [ {| m_type := int32_t; m_name := "id" |};
        {| m_type := std_vector float; m_name := "another_payload" |} ]
  | SomePacket =>
      [ {| m_type := int32_t; m_name := "id" |};
        {| m_type := float; m_name := "some_payload" |} ]
  | AnotherPacket =>
      [ {| m_type := int32_t; m_name := "id" |};
        {| m_type := std_vector float; m_name := "another_payload" |} ]
  | _ => []
  end.

(** An object of aggregate type: its member values in declaration order. *)
Record object := { o_type : type; o_members : list value }.

(** [T{}] for a member type: zero for scalars, the empty vector. *)
Definition zero (T : type) : value :=
  match T with
  | int32_t => v_int32 0
  | float => v_float 0
  | double => v_double 0
  | std_vector U => v_vector U []
  | _ => v_int32 0
  end.

(** [P{}]: every member value-initialised. *)
Definition value_init (P : type) : object :=
  {| o_type := P; o_members := (zero ∘ m_type) <$> members_of P |}.

(** An object is well formed when it has one value of the declared type per
    declared member. *)
Definition well_formed (p : object) : Prop :=
  decltype <$> o_members p = m_type <$> members_of (o_type p).

(** A pointer to data member, [&P::name]: the position of the member. *)
Definition member_ptr := nat.

Definition addr_of_member (P : type) (name : string) : member_ptr :=
  from_option fst 0%nat
    (list_find (λ d, m_name d = name) (members_of P)).

(** [p.*pm] as an lvalue read. *)
Definition read_member (pm : member_ptr) (p : object) : option value :=
  o_members p !! pm.

(** [p.*pm = v]. *)
Definition write_member (pm : member_ptr) (v : value) (p : object) : object :=
  {| o_type := o_type p; o_members := <[pm := v]> (o_members p) |}.

End cpp.

(** ** Boost.Hana *)

Module hana.
Import cpp.

(** Only the aggregates declared through [BOOST_HANA_DEFINE_STRUCT] model the
    Struct concept; the macro records the members in the order given. *)
Definition Struct (P : type) : bool :=
  match P with
  | SomePacket | AnotherPacket => true
  | _ => false
  end.

(** [hana::members(p)]: the member values, in declaration order.  (For a type
    that is not a Struct the call does not compile; the model yields the
    empty tuple there, and the module body never asks.) *)
Definition members (p : object) : list value :=
  if Struct (o_type p) then o_members p else [].

(** [hana::accessors<P>()]: one pair (name, accessor) per member, in
    declaration order; the accessor is the pointer-to-member wrapper. *)
Definition accessors (P : type) : list (string * member_ptr) :=
  if Struct P then imap (λ i d, (m_name d, i)) (members_of P) else [].

Definition first {A B} (ka : A * B) : A := ka.1.
Definition second {A B} (ka : A * B) : B := ka.2.

(** [hana::transform] and [hana::fold] on a homogeneous tuple. *)
Definition transform {A B} (xs : list A) (f : A → B) : list B := f <$> xs.

Definition fold {A S} (xs : list A) (s : S) (f : S → A → S) : S :=
  foldl f s xs.

(** [hana::unpack(xs, f)] applies [f] to the elements as an argument pack. *)
Definition unpack {A B} (xs : list A) (f : list A → B) : B := f xs.

(** [hana::cartesian_product(hana::make_tuple(xs, ys))]: all pairs, the first
    axis varying slowest. *)
Definition cartesian_product {A B} (xs : list A) (ys : list B) : list (A * B) :=
  x ← xs; (λ y, (x, y)) <$> ys.

(** [hana::for_each(xs, f)] for an [f] that acts on a captured state [S] and
    may throw: the elements are visited left to right and the first exception
    ends the loop. *)
Fixpoint for_each {A S E} (xs : list A) (f : A → S → result E S) (s : S)
  : result E S :=
  match xs with
  | [] => Ok s
  | x :: xs' => s' <-! f x s ;; for_each xs' f s'
  end.

End hana.

(** ** pybind11 and the host runtime *)

Module py.
Import cpp.

(** The two failures of [generic_type::initialize], and the two host
    exceptions raised when a registered class is used. *)
Inductive error :=
  | already_defined (name : string)
  | already_registered (name : string)
  | AttributeError (name : string)
  | TypeError.

(** A bound callable with signature [(P&) -> value]: it receives the wrapped
    object by reference, so it yields the object as it leaves it, and it
    returns its result by value. *)
Definition function := object → option value * object.

(** What a [def] family call attaches to a class. *)
Inductive attribute :=
  | constructor (Args : list type)
  | cpp_function (name : string) (f : function)
  | property (name : string) (pm : member_ptr).

(** A registered class: the host-side name, the C++ type it wraps, and the
    attributes attached so far, in the order of the [def] calls. *)
Record type_object := {
  tp_name : string;
  tp_type : type;
  tp_attrs : list attribute
}.

(** The module object [m]: its docstring and the classes registered in it, in
    registration order. *)
Record module_ := {
  doc : string;
  classes : list type_object
}.

Definition names (m : module_) : list string := tp_name <$> classes m.
Definition types (m : module_) : list type := tp_type <$> classes m.

Definition set_doc (d : string) (m : module_) : module_ :=
  {| doc := d; classes := classes m |}.

(** [py::class_<T>(m, name)]: registration happens in the constructor.  It
    fails, in this order, when the scope already has an attribute of that
    name ("an object with that name is already defined") and when the C++
    type already has a binding ("type ... is already registered").  The
    attributes of the scope are the classes registered in it; its
    double-underscore attributes such as [__doc__] are not listed. *)
Definition class_ (T : type) (name : string) (m : module_)
  : result error module_ :=
  if bool_decide (name ∈ names m) then Raise (already_defined name)
  else if bool_decide (T ∈ types m) then Raise (already_registered name)
  else Ok {| doc := doc m;
             classes := classes m ++
               [ {| tp_name := name; tp_type := T; tp_attrs := [] |} ] |}.

(** The [class_<T>] handle refers to the registered type object; a [def] on
    the handle updates that object inside the module. *)
Definition attach (T : type) (a : attribute) (m : module_) : module_ :=
  {| doc := doc m;
     classes :=
       (λ c, if bool_decide (tp_type c = T)
             then {| tp_name := tp_name c; tp_type := tp_type c;
                     tp_attrs := tp_attrs c ++ [a] |}
             else c) <$> classes m |}.

(** [py::init<Args...>()] is an object of type [constructor<Args...>];
    [.def(init)] attaches it as the class's constructor. *)
Definition init (Args : list type) : attribute := constructor Args.

Definition def_init (T : type) (i : attribute) : module_ → module_ :=
  attach T i.

(** [.def(name, f)] *)
Definition def (T : type) (name : string) (f : function) : module_ → module_ :=
  attach T (cpp_function name f).

(** [.def_readwrite(name, &T::member)] *)
Definition def_readwrite (T : type) (name : string) : module_ → module_ :=
  attach T (property name (addr_of_member T name)).

(** *** Looking up what was registered *)

(** The attribute name under which each kind is attached to the class. *)
Definition attr_name (a : attribute) : string :=
  match a with
  | constructor _ => "__init__"
  | cpp_function name _ => name
  | property name _ => name
  end.

Definition attrs_named (name : string) (c : type_object) : list attribute :=
  filter (λ a, attr_name a = name) (tp_attrs c).

Definition find_class (name : string) (m : module_) : option type_object :=
  snd <$> list_find (λ c, tp_name c = name) (classes m).

Definition bindings_of (T : type) (m : module_) : list type_object :=
  filter (λ c, tp_type c = T) (classes m).

Definition bindings_named (name : string) (m : module_) : list type_object :=
  filter (λ c, tp_name c = name) (classes m).

Definition constructors (c : type_object) : list (list type) :=
  omap (λ a, match a with constructor Args => Some Args | _ => None end)
       (tp_attrs c).

Definition methods (c : type_object) : list (string * function) :=
  omap (λ a, match a with cpp_function n f => Some (n, f) | _ => None end)
       (tp_attrs c).

Definition properties (c : type_object) : list (string * member_ptr) :=
  omap (λ a, match a with property n pm => Some (n, pm) | _ => None end)
       (tp_attrs c).

Definition find_method (c : type_object) (name : string) : option function :=
  snd <$> (snd <$> list_find (λ nf, nf.1 = name) (methods c)).

Definition find_property (c : type_object) (name : string)
  : option member_ptr :=
  snd <$> (snd <$> list_find (λ np, np.1 = name) (properties c)).

(** *** The host heap

    Host objects live at locations.  A wrapper holds the C++ object of a bound
    class; a builtin is what the type casters build from a C++ value returned
    by value (an int, a float, a list): a new host object with its own copy;
    a bound method is what reading a method attribute off an instance
    gives. *)
Inductive py_object :=
  | py_instance (p : object)
  | py_builtin (v : value)
  | py_bound_method (self : positive) (name : string).

Definition loc := positive.
Abbreviation heap := (gmap loc py_object).

Definition alloc (o : py_object) (h : heap) : loc * heap :=
  let l := fresh (dom h) in (l, <[l := o]> h).

(** [c(args...)] in the host: the registered constructor whose parameter
    types are those of the arguments brace-initialises a new object. *)
Definition construct (c : type_object) (args : list value) (h : heap)
  : result error (loc * heap) :=
  if bool_decide (decltype <$> args ∈ constructors c)
  then Ok (alloc (py_instance {| o_type := tp_type c; o_members := args |}) h)
  else Raise TypeError.

(** The dispatcher of a bound [function]: load [self] as [P&], run the
    callable on the wrapped object, cast the returned value to a new host
    object. *)
Definition dispatch (T : type) (f : function) (self : loc) (h : heap)
  : result error (loc * heap) :=
  match h !! self with
  | Some (py_instance p) =>
      if bool_decide (o_type p = T) then
        match f p with
        | (Some v, p') =>
            Ok (alloc (py_builtin v) (<[self := py_instance p']> h))
        | (None, _) => Raise TypeError
        end
      else Raise TypeError
  | _ => Raise TypeError
  end.

(** [self.name()] *)
Definition call_method (c : type_object) (name : string) (self : loc)
    (h : heap) : result error (loc * heap) :=
  match find_method c name with
  | Some f => dispatch (tp_type c) f self h
  | None => Raise (AttributeError name)
  end.

(** [self.name].  The getter of a [def_readwrite] property returns the
    member, cast to a new host object; a method name evaluates to a bound
    method, which is not the member's value. *)
Definition getattr (c : type_object) (name : string) (self : loc) (h : heap)
  : result error (loc * heap) :=
  match find_property c name with
  | Some pm => dispatch (tp_type c) (λ p, (read_member pm p, p)) self h
  | None =>
      match find_method c name with
      | Some _ => Ok (alloc (py_bound_method self name) h)
      | None => Raise (AttributeError name)
      end
  end.

(** [self.name = v].  Bound classes have no instance dictionary, so only the
    setter of a [def_readwrite] property accepts an assignment. *)
Definition setattr (c : type_object) (name : string) (v : value)
    (self : loc) (h : heap) : result error heap :=
  match find_property c name with
  | Some pm =>
      match h !! self with
      | Some (py_instance p) =>
          if bool_decide (o_type p = tp_type c)
          then Ok (<[self := py_instance (write_member pm v p)]> h)
          else Raise TypeError
      | _ => Raise TypeError
      end
  | None => Raise (AttributeError name)
  end.

(** Any in-place change of the host object at [l] (appending to a returned
    list, say). *)
Definition mutate (g : py_object → py_object) (l : loc) (h : heap) : heap :=
  alter g l h.

End py.

(** ** The module body *)

Module hanapy.
Import cpp.

Abbreviation module_ := py.module_.

(** *** Old style user-defined bindings *)

Definition old_style_packets (m : module_) : result py.error module_ :=
  m <-! py.class_ SomePacketOld "some_packet_old" m ;;
  let m := py.def_init SomePacketOld (py.init [int32_t; float]) m in
  let m := py.def_readwrite SomePacketOld "id" m in
  let m := py.def_readwrite SomePacketOld "some_payload" m in
  m <-! py.class_ AnotherPacketOld "another_packet_old" m ;;
  let m := py.def_init AnotherPacketOld (py.init [int32_t; std_vector float]) m in
  let m := py.def_readwrite AnotherPacketOld "id" m in
  let m := py.def_readwrite AnotherPacketOld "another_payload" m in
  Ok m.

(** *** Old style tensor bindings *)

Definition old_style_tensors (m : module_) : result py.error module_ :=
  m <-! py.class_ (TensorOld 1 float) "tensor_old_1d_f" m ;;
  m <-! py.class_ (TensorOld 2 float) "tensor_old_2d_f" m ;;
  m <-! py.class_ (TensorOld 3 float) "tensor_old_3d_f" m ;;
  m <-! py.class_ (TensorOld 4 float) "tensor_old_4d_f" m ;;
  m <-! py.class_ (TensorOld 5 float) "tensor_old_5d_f" m ;;
  m <-! py.class_ (TensorOld 6 float) "tensor_old_6d_f" m ;;
  m <-! py.class_ (TensorOld 1 double) "tensor_old_1d_d" m ;;
  m <-! py.class_ (TensorOld 2 double) "tensor_old_2d_d" m ;;
  m <-! py.class_ (TensorOld 3 double) "tensor_old_3d_d" m ;;
  m <-! py.class_ (TensorOld 4 double) "tensor_old_4d_d" m ;;
  m <-! py.class_ (TensorOld 5 double) "tensor_old_5d_d" m ;;
  py.class_ (TensorOld 6 double) "tensor_old_6d_d" m.

(** *** Hana style user-defined bindings *)

Definition packets : list (string * type) :=
  [ ("some_packet", SomePacket); ("another_packet", AnotherPacket) ].

(** Steps 2 and 3 of the loop body: [types] holds the [decltype] of every
    member of a value-initialised [P], and [Init] is the [constructor]
    template applied to that pack. *)
Definition Init (P : type) : py.attribute :=
  let types := hana.transform (hana.members (value_init P)) decltype in
  hana.unpack types py.constructor.

(** The lambda [[&ka](P& p) { return hana::second(ka)(p); }].  The accessor
    yields a reference to the member of [p]; the deduced return type is the
    decayed member type, so the member is copied out.  [p] is not assigned
    to.  The capture refers to the fold's by-value parameter [ka]; the pair
    holds two stateless objects, and the lambda is taken to see the pair it
    was created with. *)
Definition accessor_lambda (ka : string * member_ptr) : py.function :=
  λ p, (read_member (hana.second ka) p, p).

(** The body of the loop over [packets]. *)
Definition bind_packet (x : string * type) (m : module_)
  : result py.error module_ :=
  let P := x.2 in
  packet <-! py.class_ P x.1 m ;;
  let packet := py.def_init P (Init P) packet in
  Ok (hana.fold (hana.accessors P) packet
        (λ c ka, py.def P (hana.first ka) (accessor_lambda ka) c)).

Definition hana_style_packets (ps : list (string * type))
  : module_ → result py.error module_ :=
  hana.for_each ps bind_packet.

(** *** Hana style template bindings *)

Definition ds : list (string * Z) :=
  [ ("1d", 1); ("2d", 2); ("3d", 3); ("4d", 4); ("5d", 5); ("6d", 6) ].

Definition ts : list (string * type) :=
  [ ("f", float); ("d", double) ].

Abbreviation combination := ((string * Z) * (string * type))%type.

(** ["tensor_"s + dt[0_c][0_c].c_str() + "_"s + dt[1_c][0_c].c_str()];
    [operator+] associates to the left. *)
Definition tensor_name (dt : combination) : string :=
  (("tensor_" +:+ dt.1.1) +:+ "_") +:+ dt.2.1.

(** [Tensor<d, T>] for [d = dt[0_c][1_c]] and [T] the type in [dt[1_c][1_c]]. *)
Definition tensor_type (dt : combination) : type :=
  Tensor dt.1.2 dt.2.2.

(** The body of the loop over the cross product. *)
Definition bind_tensor (dt : combination) (m : module_)
  : result py.error module_ :=
  py.class_ (tensor_type dt) (tensor_name dt) m.

Definition hana_style_tensors (ds : list (string * Z))
    (ts : list (string * type)) : module_ → result py.error module_ :=
  hana.for_each (hana.cartesian_product ds ts) bind_tensor.

(** *** [PYBIND11_MODULE(hanapy, m)] *)

Definition empty_module : module_ := {| py.doc := ""; py.classes := [] |}.

(** The module state each of the four parts of the body starts from. *)
Definition before_packets : result py.error module_ :=
  let m := py.set_doc "Boost.Hana + pybind11 example" empty_module in
  m <-! old_style_packets m ;;
  old_style_tensors m.

Definition before_tensors : result py.error module_ :=
  m <-! before_packets ;;
  hana_style_packets packets m.

Definition PYBIND11_MODULE : result py.error module_ :=
  m <-! before_tensors ;;
  hana_style_tensors ds ts m.

End hanapy.

(** * Vocabulary of the properties *)

Import cpp.

(** The module body runs to completion; [registered] is the module it
    leaves. *)
Definition registered : py.module_ :=
  match hanapy.PYBIND11_MODULE with
  | Ok m => m
  | Raise _ => hanapy.empty_module
  end.

(** The module the tensor loop starts from in the module body. *)
Definition registered_before_tensors : py.module_ :=
  match hanapy.before_tensors with
  | Ok m => m
  | Raise _ => hanapy.empty_module
  end.

(** The class generated for a packet: the constructor [Init], then one
    method per accessor pair, each running [accessor_lambda]. *)
Definition generated_attrs (P : type) : list py.attribute :=
  hanapy.Init P ::
  ((λ ka, py.cpp_function (hana.first ka) (hanapy.accessor_lambda ka))
     <$> hana.accessors P).

(** What it means for the host to read or write a field through a class.
    Reading: some call on the attribute named after the field hands out a host
    object holding the member's value.  Writing: an assignment to that
    attribute is accepted. *)
Definition can_read (c : py.type_object) (name : string) (i : member_ptr)
  : Prop :=
  ∀ self (h : py.heap) p,
    h !! self = Some (py.py_instance p) → o_type p = py.tp_type c →
    well_formed p →
    ∃ v r h', read_member i p = Some v ∧
              (py.call_method c name self h = Ok (r, h') ∨
               py.getattr c name self h = Ok (r, h')) ∧
              h' !! r = Some (py.py_builtin v).

Definition can_write (c : py.type_object) (name : string) : Prop :=
  ∀ self (h : py.heap) p v,
    h !! self = Some (py.py_instance p) → o_type p = py.tp_type c →
    succeeds (py.setattr c name v self h).

(** The hand-written counterpart of a generated binding. *)
Definition Old (T : type) : type :=
  match T with
  | SomePacket => SomePacketOld
  | AnotherPacket => AnotherPacketOld
  | Tensor D U => TensorOld D U
  | _ => T
  end.











(** The class the loop body leaves for a packet entry [(name, P)], and the
    class a tensor combination is bound to. *)
Definition packet_class (x : string * type) : py.type_object :=
  {| py.tp_name := x.1; py.tp_type := x.2;
     py.tp_attrs := generated_attrs x.2 |}.

Definition tensor_class (dt : (string * Z) * (string * type))
  : py.type_object :=
  {| py.tp_name := hanapy.tensor_name dt;
     py.tp_type := hanapy.tensor_type dt;
     py.tp_attrs := [] |}.

(** [m] with the classes [cs] appended, in order. *)
Definition append_classes (cs : list py.type_object) (m : py.module_)
  : py.module_ :=
  {| py.doc := py.doc m; py.classes := py.classes m ++ cs |}.

(** Neither the name nor the wrapped type of [c] is bound in [m]. *)
Definition free_in (m : py.module_) (c : py.type_object) : Prop :=
  (py.tp_name c ∉ py.names m) ∧ (py.tp_type c ∉ py.types m).

(** The attributes the hand-written class of an old-style packet gets: the
    listed constructor, then one read/write property per member. *)
Definition old_style_attrs (P : type) : list py.attribute :=
  py.init (m_type <$> members_of P) ::
  imap (λ i d, py.property (m_name d) i) (members_of P).

(** * Properties *)

Lemma Ok_inj {E A} (a b : A) : @Ok E A a = Ok b → a = b.
Proof. by intros [=]. Qed.

(** ** The registered module *)

Lemma PYBIND11_MODULE_Ok : hanapy.PYBIND11_MODULE = Ok registered.
Proof. vm_compute. reflexivity. Qed.

#[global] Opaque registered.

Lemma packets_cases (x : string * type) :
  x ∈ hanapy.packets →
  x = ("some_packet", SomePacket) ∨ x = ("another_packet", AnotherPacket).
Proof.
  unfold hanapy.packets. intros Hx.
  apply elem_of_cons in Hx as [Hx | Hx]; [ by left | ].
  apply elem_of_cons in Hx as [Hx | Hx]; [ by right | ].
  by apply elem_of_nil in Hx.
Qed.

Lemma generated_packet_class (name : string) (P : type) :
  (name, P) ∈ hanapy.packets →
  ∃ c, py.find_class name registered = Some c ∧
       py.bindings_of P registered = [c] ∧
       c = {| py.tp_name := name; py.tp_type := P;
              py.tp_attrs := generated_attrs P |}.
Proof.
  intros [Hx | Hx]%packets_cases; simplify_eq;
    eexists; (split; [ vm_compute; reflexivity | ]);
    split; vm_compute; reflexivity.
Qed.

Lemma find_generated_method (P : type) (name : string) (i : nat) (d : member)
    (c : py.type_object) :
  P = SomePacket ∨ P = AnotherPacket →
  py.tp_attrs c = generated_attrs P →
  members_of P !! i = Some d →
  py.find_method c (m_name d)
  = Some (hanapy.accessor_lambda (m_name d, i)).
Proof.
  intros HP Hc Hd. unfold py.find_method, py.methods. rewrite Hc.
  destruct HP as [-> | ->];
    (destruct i as [|[|i]]; simpl in Hd; simplify_eq; reflexivity).
Qed.

(** ** The host heap *)

Lemma alloc_fresh (o : py.py_object) (h : py.heap) :
  h !! (py.alloc o h).1 = None.
Proof.
  unfold py.alloc. simpl. apply not_elem_of_dom, is_fresh.
Qed.

Lemma alloc_lookup_new (o : py.py_object) (h : py.heap) :
  (py.alloc o h).2 !! (py.alloc o h).1 = Some o.
Proof. unfold py.alloc. simpl. apply lookup_insert_eq. Qed.

Lemma alloc_lookup_old (o : py.py_object) (h : py.heap) (l : py.loc) :
  is_Some (h !! l) → (py.alloc o h).2 !! l = h !! l.
Proof.
  intros Hl. unfold py.alloc. simpl. apply lookup_insert_ne.
  intros Heq. pose proof (alloc_fresh o h) as Hf. unfold py.alloc in Hf.
  simpl in Hf. rewrite Heq in Hf. rewrite Hf in Hl. by destruct Hl.
Qed.

(** Dispatching the generated lambda: the wrapped object is written back as
    it was, and the member value goes to a new location. *)
Lemma dispatch_accessor_lambda (ka : string * member_ptr) (self : py.loc)
    (h : py.heap) (p : object) (v : value) :
  h !! self = Some (py.py_instance p) →
  read_member ka.2 p = Some v →
  py.dispatch (o_type p) (hanapy.accessor_lambda ka) self h
  = Ok (py.alloc (py.py_builtin v) h).
Proof.
  intros Hself Hv. unfold py.dispatch, hanapy.accessor_lambda, hana.second.
  rewrite Hself, bool_decide_eq_true_2 by done. rewrite Hv.
  by rewrite insert_id.
Qed.

Lemma well_formed_read (p : object) (i : nat) (d : member) :
  well_formed p →
  members_of (o_type p) !! i = Some d →
  ∃ v, read_member i p = Some v ∧ decltype v = m_type d.
Proof.
  unfold well_formed, read_member. intros Hwf Hd.
  assert (Hi : (decltype <$> o_members p) !! i = Some (m_type d)).
  { rewrite Hwf, list_lookup_fmap, Hd. done. }
  apply list_lookup_fmap_Some in Hi as (v & Hv & Ht). eauto.
Qed.

Ltac by_computation := apply (bool_decide_unpack _); vm_compute; exact I.

(** ** Generated packet bindings *)

(** C1.  For every aggregate in the [packets] list the generated class has
    exactly one constructor, and its parameter types are the struct's member
    types in declaration order: [int32_t, float] for [SomePacket] and
    [int32_t, std::vector<float>] for [AnotherPacket].  The host can
    construct an instance from an argument list exactly when the argument
    types are those. *)
Theorem generated_constructor_takes_fields (name : string) (P : type) :
  (name, P) ∈ hanapy.packets →
  ∃ m c, hanapy.PYBIND11_MODULE = Ok m ∧
         py.find_class name m = Some c ∧
         py.tp_type c = P ∧
         py.constructors c = [m_type <$> members_of P] ∧
         (∀ args h, succeeds (py.construct c args h)
                    ↔ decltype <$> args = m_type <$> members_of P) ∧
         (P = SomePacket ∧ py.constructors c = [[int32_t; float]] ∨
          P = AnotherPacket ∧
          py.constructors c = [[int32_t; std_vector float]]).
Proof.
  intros Hx. destruct (generated_packet_class _ _ Hx) as (c & Hfind & _ & Hc).
  exists registered, c. split; [ apply PYBIND11_MODULE_Ok | ].
  split; [ exact Hfind | ]. split; [ subst c; reflexivity | ].
  clear Hfind.
  assert (Hctor : py.constructors c = [m_type <$> members_of P]).
  { apply packets_cases in Hx as [Hx | Hx]; injection Hx as -> ->; subst c;
      reflexivity. }
  split; [ exact Hctor | ]. split.
  - intros args h. unfold py.construct. rewrite Hctor.
    case_bool_decide as Hargs.
    + apply list_elem_of_singleton in Hargs. split; [ done | ].
      intros _. eexists. reflexivity.
    + split; [ by intros [? ?] | ].
      intros Heq. destruct Hargs. by apply list_elem_of_singleton.
  - apply packets_cases in Hx as [Hx | Hx]; injection Hx as -> ->; subst c;
      [ left | right ]; (split; reflexivity).
Qed.

(** At ["some_packet"]: the constructor takes [(int32_t, float)]. *)
Lemma generated_constructor_takes_fields_witness :
  ∃ m c, hanapy.PYBIND11_MODULE = Ok m ∧
         py.find_class "some_packet" m = Some c ∧
         py.constructors c = [[int32_t; float]].
Proof.
  destruct (generated_constructor_takes_fields "some_packet" SomePacket)
    as (m & c & Hm & Hc & _ & Hctor & _).
  - by_computation.
  - exists m, c. split; [ exact Hm | ]. split; [ exact Hc | exact Hctor ].
Defined.

Lemma generated_accessor_call (name : string) (P : type) (i : nat)
    (d : member) (self : py.loc) (h : py.heap) (p : object) :
  (name, P) ∈ hanapy.packets →
  members_of P !! i = Some d →
  h !! self = Some (py.py_instance p) → o_type p = P → well_formed p →
  ∃ v, read_member i p = Some v ∧ decltype v = m_type d ∧
       py.call_method {| py.tp_name := name; py.tp_type := P;
                         py.tp_attrs := generated_attrs P |}
         (m_name d) self h
       = Ok (py.alloc (py.py_builtin v) h).
Proof.
  intros Hx Hd Hself HP Hwf.
  assert (HP' : P = SomePacket ∨ P = AnotherPacket).
  { apply packets_cases in Hx as [Hx | Hx]; injection Hx as -> ->; auto. }
  subst P. destruct (well_formed_read p i d Hwf Hd) as (v & Hv & Ht).
  exists v. split; [ exact Hv | ]. split; [ exact Ht | ].
  unfold py.call_method.
  rewrite (find_generated_method (o_type p) name i d) by done.
  by apply dispatch_accessor_lambda.
Qed.

Lemma generated_setattr_raises (name : string) (P : type) (n : string)
    (v : value) (self : py.loc) (h : py.heap) :
  (name, P) ∈ hanapy.packets →
  py.setattr {| py.tp_name := name; py.tp_type := P;
                py.tp_attrs := generated_attrs P |} n v self h
  = Raise (py.AttributeError n).
Proof.
  intros [Hx | Hx]%packets_cases; injection Hx as -> ->; reflexivity.
Qed.

(** C2, as stated, fails: the class generated for [SomePacket] rejects an
    assignment to [id] with an [AttributeError], on the heap holding one
    value-initialised instance; so the field cannot be written through
    the generated binding.  (The hand-written class, bound with
    [def_readwrite], accepts the same assignment.) *)
Lemma generated_accessors_not_writable :
  ∃ m c c_old,
    hanapy.PYBIND11_MODULE = Ok m ∧
    ("some_packet", SomePacket) ∈ hanapy.packets ∧
    members_of SomePacket !! 0%nat
    = Some {| m_type := int32_t; m_name := "id" |} ∧
    py.find_class "some_packet" m = Some c ∧
    py.setattr c "id" (v_int32 7) 1%positive
      {[ 1%positive := py.py_instance (value_init SomePacket) ]}
    = Raise (py.AttributeError "id") ∧
    ¬ can_write c "id" ∧
    py.find_class "some_packet_old" m = Some c_old ∧
    py.setattr c_old "id" (v_int32 7) 1%positive
      {[ 1%positive := py.py_instance (value_init SomePacketOld) ]}
    = Ok {[ 1%positive :=
              py.py_instance {| o_type := SomePacketOld;
                                o_members := [v_int32 7; v_float 0] |} ]}.
Proof.
  destruct (generated_packet_class "some_packet" SomePacket) as (c & Hc & _ & ->);
    [ by_computation | ].
  eexists registered, _, _. split; [ apply PYBIND11_MODULE_Ok | ].
  split; [ by_computation | ]. split; [ reflexivity | ].
  split; [ exact Hc | ]. split; [ reflexivity | ]. split.
  - intros Hw.
    destruct (Hw 1%positive
                {[ 1%positive := py.py_instance (value_init SomePacket) ]}
                (value_init SomePacket) (v_int32 7)) as [h' Hh'].
    + apply lookup_singleton_eq.
    + reflexivity.
    + discriminate Hh'.
  - split; [ vm_compute; reflexivity | ].
    cbv [py.setattr py.find_property py.properties py.tp_attrs omap
         list_omap list_find fmap option_fmap option_map snd fst decide_rel
         decide].
    simpl. rewrite lookup_singleton_eq. simpl. by rewrite insert_singleton_eq.
Qed.

(** C2, amended.  For every aggregate in the [packets] list and every field,
    the generated class exposes a named read accessor: calling the method
    named after the field hands out the member's value.  It exposes no write
    accessor: the class has no property, and an assignment to the attribute
    raises [AttributeError] whatever the value and the instance. *)
Theorem generated_accessors_read_only (name : string) (P : type) (i : nat)
    (d : member) :
  (name, P) ∈ hanapy.packets →
  members_of P !! i = Some d →
  ∃ m c, hanapy.PYBIND11_MODULE = Ok m ∧
         py.find_class name m = Some c ∧
         can_read c (m_name d) i ∧
         py.properties c = [] ∧
         ∀ v self h,
           py.setattr c (m_name d) v self h
           = Raise (py.AttributeError (m_name d)).
Proof.
  intros Hx Hd.
  destruct (generated_packet_class _ _ Hx) as (c & Hfind & _ & ->).
  eexists registered, _. split; [ apply PYBIND11_MODULE_Ok | ].
  split; [ exact Hfind | ]. clear Hfind. split; [ | split ].
  - intros self h p Hself HP Hwf. simpl in HP.
    destruct (generated_accessor_call name P i d self h p)
      as (v & Hv & _ & Hcall); try done.
    exists v, (py.alloc (py.py_builtin v) h).1, (py.alloc (py.py_builtin v) h).2.
    split; [ exact Hv | ]. split.
    + left. rewrite Hcall. by destruct (py.alloc _ _).
    + apply alloc_lookup_new.
  - apply packets_cases in Hx as [Hx | Hx]; injection Hx as -> ->; reflexivity.
  - intros v self h. by apply generated_setattr_raises.
Qed.

(** At [another_payload] of ["another_packet"]: readable, and assigning an
    empty vector raises. *)
Lemma generated_accessors_read_only_witness :
  ∃ m c, hanapy.PYBIND11_MODULE = Ok m ∧
         py.find_class "another_packet" m = Some c ∧
         can_read c "another_payload" 1%nat ∧
         py.setattr c "another_payload" (v_vector float []) 1%positive ∅
         = Raise (py.AttributeError "another_payload").
Proof.
  destruct (generated_accessors_read_only "another_packet" AnotherPacket 1%nat
              {| m_type := std_vector float; m_name := "another_payload" |})
    as (m & c & Hm & Hc & Hread & _ & Hset).
  - by_computation.
  - reflexivity.
  - exists m, c. split; [ exact Hm | ]. split; [ exact Hc | ].
    split; [ exact Hread | apply Hset ].
Defined.

Lemma generated_methods (P : type) (c : py.type_object) :
  py.tp_attrs c = generated_attrs P →
  py.methods c
  = (λ ka, (hana.first ka, hanapy.accessor_lambda ka)) <$> hana.accessors P.
Proof.
  intros Hc. unfold py.methods. rewrite Hc. unfold generated_attrs.
  change (omap ?sel (hanapy.Init P :: ?l)) with (omap sel l).
  induction (hana.accessors P) as [|ka kas IH]; [ done | ].
  cbn. f_equal. exact IH.
Qed.

Lemma elem_of_accessors (P : type) (n : string) (i : member_ptr) :
  (n, i) ∈ hana.accessors P →
  ∃ d, members_of P !! i = Some d ∧ n = m_name d.
Proof.
  unfold hana.accessors. destruct (hana.Struct P).
  - intros (j & d & Heq & Hd)%elem_of_lookup_imap_1.
    injection Heq as -> ->. eauto.
  - by intros ?%elem_of_nil.
Qed.

(** C3.  For every aggregate in the [packets] list and every field, the
    generated class has exactly one attribute named after the field, it is a
    method (one method per field, in declaration order, and nothing else
    besides the constructor), and calling it on an instance hands out the
    value the field holds in that instance at the time of the call. *)
Theorem one_accessor_per_field (name : string) (P : type) (i : nat)
    (d : member) :
  (name, P) ∈ hanapy.packets →
  members_of P !! i = Some d →
  ∃ m c, hanapy.PYBIND11_MODULE = Ok m ∧
         py.find_class name m = Some c ∧
         (py.methods c).*1 = m_name <$> members_of P ∧
         (∃ f, py.attrs_named (m_name d) c
               = [py.cpp_function (m_name d) f] ∧
               py.find_method c (m_name d) = Some f) ∧
         ∀ self (h : py.heap) p,
           h !! self = Some (py.py_instance p) → o_type p = P →
           well_formed p →
           ∃ v r h', read_member i p = Some v ∧
                     py.call_method c (m_name d) self h = Ok (r, h') ∧
                     h' !! r = Some (py.py_builtin v).
Proof.
  intros Hx Hd.
  destruct (generated_packet_class _ _ Hx) as (c & Hfind & _ & ->).
  eexists registered, _. split; [ apply PYBIND11_MODULE_Ok | ].
  split; [ exact Hfind | ]. clear Hfind. split; [ | split ].
  - apply packets_cases in Hx as [Hx | Hx]; injection Hx as -> ->; reflexivity.
  - apply packets_cases in Hx as [Hx | Hx]; injection Hx as -> ->;
      (destruct i as [|[|i]]; simpl in Hd; [ | | done ]);
      injection Hd as <-; eexists; split; reflexivity.
  - intros self h p Hself HP Hwf.
    destruct (generated_accessor_call name P i d self h p)
      as (v & Hv & _ & Hcall); try done.
    exists v, (py.alloc (py.py_builtin v) h).1, (py.alloc (py.py_builtin v) h).2.
    split; [ exact Hv | ]. split.
    + rewrite Hcall. by destruct (py.alloc _ _).
    + apply alloc_lookup_new.
Qed.

(** At [some_payload] of an instance holding [(3, 5)]: the call hands out
    [5]. *)
Lemma one_accessor_per_field_witness :
  ∃ m c r h',
    hanapy.PYBIND11_MODULE = Ok m ∧
    py.find_class "some_packet" m = Some c ∧
    py.call_method c "some_payload" 1%positive
      {[ 1%positive :=
           py.py_instance {| o_type := SomePacket;
                             o_members := [v_int32 3; v_float 5] |} ]}
    = Ok (r, h') ∧
    h' !! r = Some (py.py_builtin (v_float 5)).
Proof.
  destruct (one_accessor_per_field "some_packet" SomePacket 1%nat
              {| m_type := float; m_name := "some_payload" |})
    as (m & c & Hm & Hc & _ & _ & Hcall).
  - by_computation.
  - reflexivity.
  - destruct (Hcall 1%positive
                {[ 1%positive :=
                     py.py_instance {| o_type := SomePacket;
                                       o_members := [v_int32 3; v_float 5] |} ]}
                {| o_type := SomePacket; o_members := [v_int32 3; v_float 5] |})
      as (v & r & h' & Hv & Hr & Hh').
    + apply lookup_singleton_eq.
    + reflexivity.
    + reflexivity.
    + injection Hv as <-. exists m, c, r, h'.
      split; [ exact Hm | ]. split; [ exact Hc | ].
      split; [ exact Hr | exact Hh' ].
Defined.

(** C10.  For every accessor generated for a packet and every instance,
    the call leaves the instance as it was (the lambda hands its argument
    back unchanged, and the wrapped object is the same after the call), every
    other host object is untouched, the result is a new host object, and no
    change made to that result afterwards reaches the instance. *)
Theorem generated_accessor_frame (name : string) (P : type) (self : py.loc)
    (h : py.heap) (p : object) :
  (name, P) ∈ hanapy.packets →
  h !! self = Some (py.py_instance p) → o_type p = P → well_formed p →
  ∃ m c, hanapy.PYBIND11_MODULE = Ok m ∧
         py.find_class name m = Some c ∧
         py.methods c ≠ [] ∧
         ∀ n f, (n, f) ∈ py.methods c →
           (f p).2 = p ∧
           ∃ r h', py.call_method c n self h = Ok (r, h') ∧
                   h' !! self = Some (py.py_instance p) ∧
                   r ≠ self ∧
                   h !! r = None ∧
                   (∀ l, l ≠ r → h' !! l = h !! l) ∧
                   ∀ g, py.mutate g r h' !! self = Some (py.py_instance p) ∧
                        ∀ l, l ≠ r → py.mutate g r h' !! l = h !! l.
Proof.
  intros Hx Hself HP Hwf.
  destruct (generated_packet_class _ _ Hx) as (c & Hfind & _ & ->).
  eexists registered, _. split; [ apply PYBIND11_MODULE_Ok | ].
  split; [ exact Hfind | ]. clear Hfind. split.
  { apply packets_cases in Hx as [Hx | Hx]; injection Hx as -> ->; done. }
  intros n f Hnf. rewrite (generated_methods P) in Hnf by done.
  apply list_elem_of_fmap in Hnf as ([n' i] & Heq & Hka).
  injection Heq as -> ->. unfold hana.first. simpl.
  apply elem_of_accessors in Hka as (d & Hd & ->).
  split; [ reflexivity | ].
  destruct (generated_accessor_call name P i d self h p)
    as (v & Hv & _ & Hcall); try done.
  pose proof (alloc_fresh (py.py_builtin v) h) as Hfresh.
  assert (Hne : (py.alloc (py.py_builtin v) h).1 ≠ self).
  { intros Heq. rewrite Heq, Hself in Hfresh. discriminate. }
  exists (py.alloc (py.py_builtin v) h).1, (py.alloc (py.py_builtin v) h).2.
  split; [ rewrite Hcall; by destruct (py.alloc _ _) | ].
  split; [ rewrite alloc_lookup_old; [ done | by rewrite Hself ] | ].
  split; [ exact Hne | ]. split; [ exact Hfresh | ].
  assert (Hframe : ∀ l, l ≠ (py.alloc (py.py_builtin v) h).1 →
                        (py.alloc (py.py_builtin v) h).2 !! l = h !! l).
  { intros l Hl. unfold py.alloc in *. simpl in *.
    by apply lookup_insert_ne. }
  split; [ exact Hframe | ].
  intros g. unfold py.mutate. split.
  - rewrite lookup_alter_ne by done. rewrite Hframe by done. exact Hself.
  - intros l Hl. rewrite lookup_alter_ne by done. by apply Hframe.
Qed.

(** At [another_payload] of an instance holding a one-element vector:
    replacing the returned list by an empty one leaves the instance as it
    was. *)
Lemma generated_accessor_frame_witness :
  let p := {| o_type := AnotherPacket;
              o_members := [v_int32 3; v_vector float [v_float 5]] |} in
  let h : py.heap := {[ 1%positive := py.py_instance p ]} in
  ∃ m c r h',
    hanapy.PYBIND11_MODULE = Ok m ∧
    py.find_class "another_packet" m = Some c ∧
    py.call_method c "another_payload" 1%positive h = Ok (r, h') ∧
    py.mutate (λ _, py.py_builtin (v_vector float [])) r h' !! 1%positive
    = Some (py.py_instance p).
Proof.
  intros p h.
  destruct (generated_accessor_frame "another_packet" AnotherPacket
              1%positive h p) as (m & c & Hm & Hc & _ & Hframe).
  - by_computation.
  - subst h. apply lookup_singleton_eq.
  - reflexivity.
  - reflexivity.
  - destruct (Hframe "another_payload"
                (hanapy.accessor_lambda ("another_payload", 1%nat)))
      as (_ & r & h' & Hcall & _ & _ & _ & _ & Hmut).
    + rewrite PYBIND11_MODULE_Ok in Hm. apply Ok_inj in Hm. subst m.
      destruct (generated_packet_class "another_packet" AnotherPacket)
        as (c' & Hc' & _ & ->); [ by_computation | ].
      rewrite Hc in Hc'. apply (inj Some) in Hc'. subst c.
      rewrite (generated_methods AnotherPacket) by reflexivity.
      apply list_elem_of_fmap. exists ("another_payload", 1%nat).
      split; [ reflexivity | ].
      apply list_elem_of_lookup. exists 1%nat. reflexivity.
    + exists m, c, r, h'. split; [ exact Hm | ]. split; [ exact Hc | ].
      split; [ exact Hcall | exact (proj1 (Hmut _)) ].
Defined.

(** ** Generated tensor bindings *)

(** Case analysis over the twelve declared combinations. *)
Ltac each_combination dt H :=
  revert dt H; apply Forall_forall;
  repeat first [ apply Forall_nil_2 | apply Forall_cons_2 ].

Lemma generated_tensor_class (dt : (string * Z) * (string * type)) :
  dt ∈ hana.cartesian_product hanapy.ds hanapy.ts →
  let c := {| py.tp_name := hanapy.tensor_name dt;
              py.tp_type := hanapy.tensor_type dt;
              py.tp_attrs := [] |} in
  py.bindings_of (hanapy.tensor_type dt) registered = [c] ∧
  py.bindings_named (hanapy.tensor_name dt) registered = [c] ∧
  py.find_class (hanapy.tensor_name dt) registered = Some c.
Proof.
  intros Hdt. each_combination dt Hdt;
    (split; [ | split ]); vm_compute; reflexivity.
Qed.

(** C4, as stated, fails: for the pair named ["1d"] and ["f"] the one class
    bound to [Tensor<1, float>] is named ["tensor_1d_f"], which is not the
    concatenation of ["1d"] and ["f"]. *)
Lemma tensor_name_not_plain_concatenation :
  ∃ m c, hanapy.PYBIND11_MODULE = Ok m ∧
         (("1d", 1), ("f", float))
           ∈ hana.cartesian_product hanapy.ds hanapy.ts ∧
         py.bindings_of (Tensor 1 float) m = [c] ∧
         py.tp_name c = "tensor_1d_f" ∧
         py.tp_name c ≠ "1d" +:+ "f".
Proof.
  eexists registered, _. split; [ apply PYBIND11_MODULE_Ok | ].
  split; [ by_computation | ].
  split; [ vm_compute; reflexivity | ].
  split; [ reflexivity | discriminate ].
Qed.

(** C4, amended.  For every (dimension, scalar type) pair of the declared
    cross product, the class bound to that [Tensor] instantiation is named by
    the concatenation of the fixed prefix ["tensor_"], the dimension's name,
    the separator ["_"] and the scalar type's name. *)
Theorem tensor_binding_name (dt : (string * Z) * (string * type)) :
  dt ∈ hana.cartesian_product hanapy.ds hanapy.ts →
  ∃ m c, hanapy.PYBIND11_MODULE = Ok m ∧
         py.bindings_of (Tensor dt.1.2 dt.2.2) m = [c] ∧
         py.tp_name c = "tensor_" +:+ dt.1.1 +:+ "_" +:+ dt.2.1.
Proof.
  intros Hdt. pose proof (generated_tensor_class dt Hdt) as (Hc & _ & _).
  eexists registered, _. split; [ apply PYBIND11_MODULE_Ok | ].
  split; [ exact Hc | ]. clear Hc.
  each_combination dt Hdt; reflexivity.
Qed.

(** At the pair ["3d"], ["d"]: the class of [Tensor<3, double>] is named
    ["tensor_3d_d"]. *)
Lemma tensor_binding_name_witness :
  ∃ m c, hanapy.PYBIND11_MODULE = Ok m ∧
         py.bindings_of (Tensor 3 double) m = [c] ∧
         py.tp_name c = "tensor_3d_d".
Proof.
  exact (tensor_binding_name (("3d", 3), ("d", double))
           ltac:(by_computation)).
Defined.

(** C8.  For every instantiation of the declared cross product, the class
    bound to it has no attribute at all: no constructor, no method, no
    property.  The host can therefore neither construct it nor call, read or
    assign any member through it. *)
Theorem tensor_binding_has_no_members (dt : (string * Z) * (string * type)) :
  dt ∈ hana.cartesian_product hanapy.ds hanapy.ts →
  ∃ m c, hanapy.PYBIND11_MODULE = Ok m ∧
         py.bindings_of (hanapy.tensor_type dt) m = [c] ∧
         py.find_class (hanapy.tensor_name dt) m = Some c ∧
         py.tp_attrs c = [] ∧
         py.constructors c = [] ∧ py.methods c = [] ∧ py.properties c = [] ∧
         (∀ args h, py.construct c args h = Raise py.TypeError) ∧
         (∀ n self h,
            py.call_method c n self h = Raise (py.AttributeError n) ∧
            py.getattr c n self h = Raise (py.AttributeError n)) ∧
         (∀ n v self h, py.setattr c n v self h = Raise (py.AttributeError n)).
Proof.
  intros Hdt. pose proof (generated_tensor_class dt Hdt) as (Hc & _ & Hfind).
  eexists registered, _. split; [ apply PYBIND11_MODULE_Ok | ].
  split; [ exact Hc | ]. split; [ exact Hfind | ].
  repeat split; reflexivity.
Qed.

(** At the pair ["6d"], ["f"]: no attribute, and construction raises. *)
Lemma tensor_binding_has_no_members_witness :
  ∃ m c, hanapy.PYBIND11_MODULE = Ok m ∧
         py.find_class "tensor_6d_f" m = Some c ∧
         py.tp_attrs c = [] ∧
         py.construct c [] ∅ = Raise py.TypeError.
Proof.
  destruct (tensor_binding_has_no_members (("6d", 6), ("f", float)))
    as (m & c & Hm & _ & Hc & Hattrs & _ & _ & _ & Hctor & _).
  - by_computation.
  - exists m, c. split; [ exact Hm | ]. split; [ exact Hc | ].
    split; [ exact Hattrs | apply Hctor ].
Defined.

(** ** The registration step as a whole *)

(** The names the module body registers, in registration order. *)
Example registered_names :
  py.names registered
  = [ "some_packet_old"; "another_packet_old";
      "tensor_old_1d_f"; "tensor_old_2d_f"; "tensor_old_3d_f";
      "tensor_old_4d_f"; "tensor_old_5d_f"; "tensor_old_6d_f";
      "tensor_old_1d_d"; "tensor_old_2d_d"; "tensor_old_3d_d";
      "tensor_old_4d_d"; "tensor_old_5d_d"; "tensor_old_6d_d";
      "some_packet"; "another_packet";
      "tensor_1d_f"; "tensor_1d_d"; "tensor_2d_f"; "tensor_2d_d";
      "tensor_3d_f"; "tensor_3d_d"; "tensor_4d_f"; "tensor_4d_d";
      "tensor_5d_f"; "tensor_5d_d"; "tensor_6d_f"; "tensor_6d_d" ].
Proof. vm_compute. reflexivity. Qed.

(** C5.  The module body completes, and in the module it leaves each of the
    2 declared packets has exactly one class of its listed name, which is the
    one class bound to the packet type; each of the 12 combinations of the
    declared cross product has exactly one class of its derived name, which
    is the one class bound to that [Tensor] instantiation; and the 14 derived
    names are pairwise distinct. *)
Theorem every_declared_type_bound_once :
  ∃ m, hanapy.PYBIND11_MODULE = Ok m ∧
       length hanapy.packets = 2%nat ∧
       length hanapy.ds = 6%nat ∧ length hanapy.ts = 2%nat ∧
       length (hana.cartesian_product hanapy.ds hanapy.ts) = 12%nat ∧
       Forall (λ x, ∃ c, py.bindings_named x.1 m = [c] ∧
                         py.bindings_of x.2 m = [c])
              hanapy.packets ∧
       Forall (λ dt, ∃ c, py.bindings_named (hanapy.tensor_name dt) m = [c] ∧
                          py.bindings_of (hanapy.tensor_type dt) m = [c])
              (hana.cartesian_product hanapy.ds hanapy.ts) ∧
       NoDup (hanapy.packets.*1 ++
              (hanapy.tensor_name
                 <$> hana.cartesian_product hanapy.ds hanapy.ts))%list.
Proof.
  exists registered. split; [ apply PYBIND11_MODULE_Ok | ].
  do 4 (split; [ reflexivity | ]). split; [ | split ].
  - repeat first [ apply Forall_nil_2 | apply Forall_cons_2 ];
      eexists; split; vm_compute; reflexivity.
  - apply Forall_forall. intros dt Hdt.
    destruct (generated_tensor_class dt Hdt) as (Hty & Hname & _). eauto.
  - by_computation.
Qed.

(** C6.  The module body has no runtime error path on its fixed inputs: it
    returns a module and raises nothing.  The 14 hand-written bindings are
    registered first and the 14 generated ones after them; the 28 names are
    pairwise distinct, and so are the 28 bound C++ types, so neither guard
    of a registration call ever fires. *)
Theorem registration_never_raises :
  ∃ m0 m,
    hanapy.before_packets = Ok m0 ∧
    hanapy.PYBIND11_MODULE = Ok m ∧
    (∀ e, hanapy.PYBIND11_MODULE ≠ Raise e) ∧
    length (py.names m0) = 14%nat ∧
    py.names m
    = (py.names m0 ++ hanapy.packets.*1 ++
       (hanapy.tensor_name
          <$> hana.cartesian_product hanapy.ds hanapy.ts))%list ∧
    length (py.names m) = 28%nat ∧
    NoDup (py.names m) ∧
    NoDup (py.types m).
Proof.
  eexists _, registered. split; [ vm_compute; reflexivity | ].
  split; [ apply PYBIND11_MODULE_Ok | ].
  split; [ intros e; rewrite PYBIND11_MODULE_Ok; discriminate | ].
  split; [ reflexivity | ].
  split; [ vm_compute; reflexivity | ].
  split; [ vm_compute; reflexivity | ].
  split; by_computation.
Qed.

Lemma old_packet_class (name : string) (P : type) :
  (name, P) ∈ hanapy.packets →
  ∃ c_old, py.bindings_of (Old P) registered = [c_old] ∧
           py.constructors c_old = [m_type <$> members_of (Old P)] ∧
           py.constructors c_old = [m_type <$> members_of P].
Proof.
  intros [Hx | Hx]%packets_cases; injection Hx as -> ->;
    eexists; (split; [ vm_compute; reflexivity | ]); split; reflexivity.
Qed.

Lemma old_tensor_class (dt : (string * Z) * (string * type)) :
  dt ∈ hana.cartesian_product hanapy.ds hanapy.ts →
  py.bindings_of (Old (hanapy.tensor_type dt)) registered
  = [ {| py.tp_name :=
           "tensor" +:+ "_old" +:+ ("_" +:+ dt.1.1 +:+ "_" +:+ dt.2.1);
         py.tp_type := TensorOld dt.1.2 dt.2.2;
         py.tp_attrs := [] |} ].
Proof.
  intros Hdt. each_combination dt Hdt; vm_compute; reflexivity.
Qed.

(** C9.  The generated bindings agree with the hand-written ones.  For each
    packet, the constructor signatures of the generated class are those of
    the class hand-written for the corresponding [Old] type.  For each of the
    12 combinations, the name of the generated tensor class is the name of
    the class hand-written for the same instantiation of [TensorOld] with the
    infix ["_old"] removed. *)
Theorem generated_bindings_match_old_style (name : string) (P : type)
    (dt : (string * Z) * (string * type)) :
  (name, P) ∈ hanapy.packets →
  dt ∈ hana.cartesian_product hanapy.ds hanapy.ts →
  ∃ m c c_old t t_old rest,
    hanapy.PYBIND11_MODULE = Ok m ∧
    py.bindings_of P m = [c] ∧
    py.bindings_of (Old P) m = [c_old] ∧
    py.constructors c = py.constructors c_old ∧
    py.constructors c_old = [m_type <$> members_of (Old P)] ∧
    py.bindings_of (hanapy.tensor_type dt) m = [t] ∧
    py.bindings_of (Old (hanapy.tensor_type dt)) m = [t_old] ∧
    py.tp_name t_old = "tensor" +:+ "_old" +:+ rest ∧
    py.tp_name t = "tensor" +:+ rest.
Proof.
  intros Hx Hdt.
  destruct (generated_packet_class _ _ Hx) as (c & _ & Hc & Hceq).
  destruct (old_packet_class _ _ Hx) as (c_old & Hc_old & Hctor_old & Hctor).
  destruct (generated_tensor_class dt Hdt) as (Ht & _ & _).
  pose proof (old_tensor_class dt Hdt) as Ht_old.
  eexists registered, c, c_old, _, _, ("_" +:+ dt.1.1 +:+ "_" +:+ dt.2.1).
  split; [ apply PYBIND11_MODULE_Ok | ]. split; [ exact Hc | ].
  split; [ exact Hc_old | ]. split.
  { rewrite Hctor. clear Hc Hc_old Hctor Hctor_old Ht Ht_old.
    apply packets_cases in Hx as [Hx | Hx]; injection Hx as -> ->; subst c;
      reflexivity. }
  split; [ exact Hctor_old | ]. split; [ exact Ht | ].
  split; [ exact Ht_old | ]. split; [ reflexivity | ].
  clear - Hdt. each_combination dt Hdt; reflexivity.
Qed.

(** At ["another_packet"] and the pair ["1d"], ["f"]. *)
Lemma generated_bindings_match_old_style_witness :
  ∃ m c c_old t t_old,
    hanapy.PYBIND11_MODULE = Ok m ∧
    py.bindings_of AnotherPacket m = [c] ∧
    py.bindings_of AnotherPacketOld m = [c_old] ∧
    py.constructors c = py.constructors c_old ∧
    py.constructors c_old = [[int32_t; std_vector float]] ∧
    py.bindings_of (Tensor 1 float) m = [t] ∧
    py.bindings_of (TensorOld 1 float) m = [t_old] ∧
    py.tp_name t_old = "tensor_old_1d_f" ∧
    py.tp_name t = "tensor_1d_f".
Proof.
  destruct (generated_bindings_match_old_style
              "another_packet" AnotherPacket (("1d", 1), ("f", float)))
    as (m & c & c_old & t & t_old & rest & Hm & Hc & Hc_old & Hctor
        & Hctor_old & Ht & Ht_old & Hname_old & Hname).
  - by_computation.
  - by_computation.
  - exists m, c, c_old, t, t_old.
    split; [ exact Hm | ]. split; [ exact Hc | ]. split; [ exact Hc_old | ].
    split; [ exact Hctor | ]. split; [ exact Hctor_old | ].
    split; [ exact Ht | ]. split; [ exact Ht_old | ].
    rewrite PYBIND11_MODULE_Ok in Hm. apply Ok_inj in Hm. subst m.
    rewrite (old_tensor_class (("1d", 1), ("f", float))) in Ht_old
      by by_computation.
    apply (inj (λ x, [x])) in Ht_old. subst t_old.
    pose proof (generated_tensor_class (("1d", 1), ("f", float))
                  ltac:(by_computation)) as (Ht' & _).
    simpl in Ht, Ht'. rewrite Ht' in Ht.
    apply (inj (λ x, [x])) in Ht. subst t.
    split; reflexivity.
Defined.

(** ** Extending an axis of the cross product *)

(** *** Strings *)






(** *** Lists *)





Lemma cartesian_product_Permutation_l {A B} (xs xs' : list A)
    (ys : list B) :
  xs ≡ₚ xs' →
  hana.cartesian_product xs ys ≡ₚ hana.cartesian_product xs' ys.
Proof. intros Hxs. unfold hana.cartesian_product. by rewrite Hxs. Qed.


(** *** Registering a list of tensor bindings *)


Lemma class__Raise (T : type) (name : string) (m : py.module_) :
  name ∈ py.names m ∨ T ∈ py.types m →
  ∃ e, py.class_ T name m = Raise e.
Proof.
  intros Hbound. unfold py.class_. repeat case_bool_decide; eauto.
  by destruct Hbound.
Qed.




(** *** One new entry on one axis *)






#[global] Opaque registered_before_tensors.




(** * Further properties of the module body *)

(** ** Registration loops

    Both loops of the module body run a step that registers one class per
    element.  The facts below hold for any such step. *)

Section registration_loop.
Context {A : Type}.
Variable step : A → py.module_ → result py.error py.module_.
Variable cls : A → py.type_object.

Hypothesis step_Ok : ∀ a m m',
  step a m = Ok m' ↔ free_in m (cls a) ∧ m' = append_classes [cls a] m.

Lemma free_in_append (m : py.module_) (c c' : py.type_object) :
  free_in (append_classes [c] m) c' ↔
  free_in m c' ∧ py.tp_name c' ≠ py.tp_name c ∧ py.tp_type c' ≠ py.tp_type c.
Proof.
  unfold free_in, append_classes, py.names, py.types. simpl.
  rewrite !fmap_app. simpl.
  rewrite !not_elem_of_app, !list_elem_of_singleton. tauto.
Qed.

Lemma for_each_step_Ok (xs : list A) (m m' : py.module_) :
  hana.for_each xs step m = Ok m' ↔
  NoDup (py.tp_name ∘ cls <$> xs) ∧
  NoDup (py.tp_type ∘ cls <$> xs) ∧
  Forall (λ a, free_in m (cls a)) xs ∧
  m' = append_classes (cls <$> xs) m.
Proof.
  revert m. induction xs as [|a xs IH]; intros m.
  - simpl. split.
    + intros Hm%Ok_inj. subst m'.
      repeat split; try constructor.
      unfold append_classes. simpl. rewrite (right_id_L [] (++)).
      by destruct m.
    + intros (_ & _ & _ & ->). unfold append_classes. simpl.
      rewrite (right_id_L [] (++)). by destruct m.
  - cbn [hana.for_each]. rewrite !fmap_cons, !NoDup_cons, Forall_cons.
    destruct (step a m) as [m1|e] eqn:Hstep; cbn [bind].
    + apply step_Ok in Hstep as [Hfree ->]. rewrite IH.
      setoid_rewrite free_in_append.
      rewrite Forall_and, Forall_and.
      rewrite !list_elem_of_fmap, !Forall_forall.
      unfold append_classes. simpl. rewrite <- (assoc_L (++)). simpl.
      split.
      * intros (Hn & Ht & (Hfr & Hnn & Htt) & ->).
        destruct Hfree as [Hfn Hft].
        split; [ split; [ | done ] | ].
        { intros (b & Heq & Hb). by destruct (Hnn b Hb). }
        split; [ split; [ | done ] | ].
        { intros (b & Heq & Hb). by destruct (Htt b Hb). }
        split; [ | done ].
        split; [ done | ]. intros b Hb. apply (Hfr b Hb).
      * intros ((Hna & Hn) & (Hta & Ht) & (_ & Hfr) & ->).
        split; [ done | ]. split; [ done | ]. split; [ | done ].
        split; [ exact Hfr | ]. split.
        -- intros b Hb Heq. destruct Hna. by exists b.
        -- intros b Hb Heq. destruct Hta. by exists b.
    + split; [ discriminate | ].
      intros (_ & _ & (Hfree & _) & _).
      assert (Hok : step a m = Ok (append_classes [cls a] m))
        by by apply step_Ok.
      rewrite Hok in Hstep. discriminate.
Qed.
End registration_loop.

(** ** The two loop bodies *)

Lemma class__Ok_iff (T : type) (name : string) (m m' : py.module_) :
  py.class_ T name m = Ok m' ↔
  (name ∉ py.names m) ∧ (T ∉ py.types m) ∧
  m' = append_classes
         [ {| py.tp_name := name; py.tp_type := T; py.tp_attrs := [] |} ] m.
Proof.
  unfold py.class_. repeat case_bool_decide; split;
    try discriminate; try (by intros (? & ? & ?)).
  - intros Hm%Ok_inj. by subst m'.
  - by intros (_ & _ & ->).
Qed.

(** A [def] through the handle of the class registered last, whose type no
    earlier class wraps, touches that class only. *)
Lemma attach_last (T : type) (a : py.attribute) (name : string)
    (attrs : list py.attribute) (m : py.module_) :
  T ∉ py.types m →
  py.attach T a
    (append_classes
       [ {| py.tp_name := name; py.tp_type := T; py.tp_attrs := attrs |} ] m)
  = append_classes
      [ {| py.tp_name := name; py.tp_type := T;
           py.tp_attrs := attrs ++ [a] |} ] m.
Proof.
  intros HT. unfold py.attach, append_classes. simpl. f_equal.
  rewrite fmap_app. simpl. rewrite bool_decide_eq_true_2 by done.
  f_equal. unfold py.types in HT.
  induction (py.classes m) as [|c cs IH]; [ done | ].
  rewrite fmap_cons in HT. apply not_elem_of_cons in HT as [Hc Hcs].
  simpl. rewrite bool_decide_eq_false_2 by done. f_equal. by apply IH.
Qed.

Lemma fold_def_last (P : type) (name : string)
    (kas : list (string * member_ptr)) (attrs : list py.attribute)
    (m : py.module_) :
  P ∉ py.types m →
  hana.fold kas
    (append_classes
       [ {| py.tp_name := name; py.tp_type := P; py.tp_attrs := attrs |} ] m)
    (λ c ka, py.def P (hana.first ka) (hanapy.accessor_lambda ka) c)
  = append_classes
      [ {| py.tp_name := name; py.tp_type := P;
           py.tp_attrs := attrs ++
             ((λ ka, py.cpp_function (hana.first ka)
                       (hanapy.accessor_lambda ka)) <$> kas) |} ] m.
Proof.
  intros HP. unfold hana.fold. revert attrs.
  induction kas as [|ka kas IH]; intros attrs.
  - simpl. by rewrite (right_id_L [] (++)).
  - simpl. unfold py.def at 2. rewrite attach_last by done.
    rewrite IH. by rewrite <- (assoc_L (++)).
Qed.

Lemma bind_packet_Ok (x : string * type) (m m' : py.module_) :
  hanapy.bind_packet x m = Ok m' ↔
  free_in m (packet_class x) ∧ m' = append_classes [packet_class x] m.
Proof.
  unfold hanapy.bind_packet, free_in, packet_class. simpl.
  destruct (py.class_ x.2 x.1 m) as [m1|e] eqn:Hclass; cbn [bind].
  - apply class__Ok_iff in Hclass as (Hn & Ht & ->).
    unfold py.def_init. rewrite attach_last by done.
    rewrite fold_def_last by done. simpl. split.
    + intros Hm%Ok_inj. by subst m'.
    + by intros (_ & ->).
  - split; [ discriminate | ]. intros ([Hn Ht] & _).
    assert (Hok : ∃ m1, py.class_ x.2 x.1 m = Ok m1).
    { eexists. by apply class__Ok_iff. }
    destruct Hok as [m1 Hok]. rewrite Hok in Hclass. discriminate.
Qed.

Lemma bind_tensor_Ok (dt : (string * Z) * (string * type))
    (m m' : py.module_) :
  hanapy.bind_tensor dt m = Ok m' ↔
  free_in m (tensor_class dt) ∧ m' = append_classes [tensor_class dt] m.
Proof.
  unfold hanapy.bind_tensor, free_in, tensor_class. simpl.
  rewrite class__Ok_iff. tauto.
Qed.







(** X5.  Pairwise distinct names and values on each axis do not by
    themselves keep the derived names apart: the separator can also occur
    inside a component name.  With dimensions ["a"], ["a_b"] and scalar
    types ["b_c"], ["c"], two combinations derive ["tensor_a_b_c"], and the
    loop raises on the second of them. *)
Theorem tensor_names_can_collide :
  ∃ (ds' : list (string * Z)) (ts' : list (string * type)),
    NoDup ds'.*1 ∧ NoDup ts'.*1 ∧ NoDup ds'.*2 ∧ NoDup ts'.*2 ∧
    ¬ NoDup (hanapy.tensor_name <$> hana.cartesian_product ds' ts') ∧
    hanapy.hana_style_tensors ds' ts' hanapy.empty_module
    = Raise (py.already_defined "tensor_a_b_c").
Proof.
  exists [("a", 1); ("a_b", 2)], [("b_c", float); ("c", double)].
  repeat (split; [ by_computation | ]).
  vm_compute. reflexivity.
Qed.

(** X6.  When either axis is empty the cross product is empty: the tensor
    loop registers nothing and hands the module back as it was. *)
Theorem empty_axis_registers_nothing (ds' : list (string * Z))
    (ts' : list (string * type)) (m : py.module_) :
  ds' = [] ∨ ts' = [] →
  hana.cartesian_product ds' ts' = [] ∧
  hanapy.hana_style_tensors ds' ts' m = Ok m.
Proof.
  intros Hempty.
  assert (Hnil : hana.cartesian_product ds' ts' = []).
  { destruct Hempty as [-> | ->]; [ done | ].
    unfold hana.cartesian_product.
    induction ds' as [|d ds'' IH]; [ done | ].
    cbn [mbind list_bind]. by rewrite IH. }
  split; [ done | ]. unfold hanapy.hana_style_tensors. by rewrite Hnil.
Qed.

(** Six dimensions and no scalar type, on the module the loop starts from. *)
Lemma empty_axis_registers_nothing_witness :
  hanapy.hana_style_tensors hanapy.ds [] registered_before_tensors
  = Ok registered_before_tensors.
Proof.
  apply (empty_axis_registers_nothing hanapy.ds [] registered_before_tensors).
  right. reflexivity.
Defined.

(** ** Constructing, reading and writing packets from the host *)

Lemma old_style_class (name : string) (P : type) :
  (name, P) ∈ hanapy.packets →
  py.bindings_of (Old P) registered
  = [ {| py.tp_name := name +:+ "_old"; py.tp_type := Old P;
         py.tp_attrs := old_style_attrs (Old P) |} ].
Proof.
  intros [Hx | Hx]%packets_cases; injection Hx as -> ->;
    vm_compute; reflexivity.
Qed.

Lemma find_old_style_property (P : type) (i : nat) (d : member)
    (c : py.type_object) :
  P = SomePacket ∨ P = AnotherPacket →
  py.tp_attrs c = old_style_attrs (Old P) →
  members_of (Old P) !! i = Some d →
  py.find_property c (m_name d) = Some i.
Proof.
  intros HP Hc Hd. unfold py.find_property, py.properties. rewrite Hc.
  destruct HP as [-> | ->];
    (destruct i as [|[|i]]; simpl in Hd; [ | | done ]);
    injection Hd as <-; reflexivity.
Qed.

Lemma packets_types (name : string) (P : type) :
  (name, P) ∈ hanapy.packets → P = SomePacket ∨ P = AnotherPacket.
Proof. intros [Hx | Hx]%packets_cases; injection Hx as -> ->; auto. Qed.

Lemma well_formed_length (p : object) :
  well_formed p → length (o_members p) = length (members_of (o_type p)).
Proof.
  unfold well_formed. intros Hwf. apply (f_equal length) in Hwf.
  by rewrite !length_fmap in Hwf.
Qed.

(** Assigning a value of the declared type to a member keeps the object well
    formed, stores the value, and leaves the other members alone. *)
Lemma write_member_spec (p : object) (i : nat) (d : member) (v : value) :
  well_formed p →
  members_of (o_type p) !! i = Some d →
  decltype v = m_type d →
  well_formed (write_member i v p) ∧
  o_type (write_member i v p) = o_type p ∧
  read_member i (write_member i v p) = Some v ∧
  ∀ j, j ≠ i → read_member j (write_member i v p) = read_member j p.
Proof.
  intros Hwf Hd Hv.
  assert (Hi : (i < length (o_members p))%nat).
  { rewrite well_formed_length by done. by eapply lookup_lt_Some. }
  unfold well_formed, write_member, read_member in *. simpl.
  split; [ | split; [ done | split ] ].
  - rewrite list_fmap_insert, Hwf, Hv.
    apply list_insert_id. by rewrite list_lookup_fmap, Hd.
  - by apply list_lookup_insert_eq.
  - intros j Hj. by apply list_lookup_insert_ne.
Qed.

(** X7.  A generated packet class constructed from the host with arguments
    of the member types reads back, through the accessor named after the
    i-th field, the i-th constructor argument: constructor parameters and
    accessors follow the same declaration order. *)
Theorem constructed_packet_reads_back (name : string) (P : type) (i : nat)
    (d : member) (args : list value) (h : py.heap) :
  (name, P) ∈ hanapy.packets →
  members_of P !! i = Some d →
  decltype <$> args = m_type <$> members_of P →
  ∃ m c self h1 v r h2,
    hanapy.PYBIND11_MODULE = Ok m ∧
    py.find_class name m = Some c ∧
    py.construct c args h = Ok (self, h1) ∧
    h !! self = None ∧
    args !! i = Some v ∧
    py.call_method c (m_name d) self h1 = Ok (r, h2) ∧
    h2 !! r = Some (py.py_builtin v).
Proof.
  intros Hx Hd Hargs.
  destruct (generated_packet_class _ _ Hx) as (c & Hfind & _ & ->).
  set (p0 := {| o_type := P; o_members := args |}).
  set (a := py.alloc (py.py_instance p0) h).
  destruct (generated_accessor_call name P i d a.1 a.2 p0)
    as (v & Hv & _ & Hcall);
    [ exact Hx | exact Hd | apply alloc_lookup_new | reflexivity
    | exact Hargs | ].
  eexists registered, _, a.1, a.2, v, _, _.
  split; [ apply PYBIND11_MODULE_Ok | ]. split; [ exact Hfind | ].
  clear Hfind. split.
  { unfold py.construct. rewrite bool_decide_eq_true_2.
    - reflexivity.
    - rewrite Hargs. clear - Hx.
      apply packets_cases in Hx as [Hx | Hx]; injection Hx as -> ->;
        by_computation. }
  split; [ apply alloc_fresh | ]. split; [ exact Hv | ].
  split; [ rewrite Hcall; by destruct (py.alloc _ _) | ].
  apply alloc_lookup_new.
Qed.

(** An [another_packet] built from [(4, [])] hands out the empty vector. *)
Lemma constructed_packet_reads_back_witness :
  ∃ m c self h1 r h2,
    hanapy.PYBIND11_MODULE = Ok m ∧
    py.find_class "another_packet" m = Some c ∧
    py.construct c [v_int32 4; v_vector float []] ∅ = Ok (self, h1) ∧
    py.call_method c "another_payload" self h1 = Ok (r, h2) ∧
    h2 !! r = Some (py.py_builtin (v_vector float [])).
Proof.
  destruct (constructed_packet_reads_back "another_packet" AnotherPacket
              1%nat {| m_type := std_vector float;
                       m_name := "another_payload" |}
              [v_int32 4; v_vector float []] ∅)
    as (m & c & self & h1 & v & r & h2 & Hm & Hc & Hnew & _ & Hv & Hcall
        & Hr).
  - by_computation.
  - reflexivity.
  - reflexivity.
  - apply (inj Some) in Hv. subst v. exists m, c, self, h1, r, h2.
    split; [ exact Hm | ]. split; [ exact Hc | ]. split; [ exact Hnew | ].
    split; [ exact Hcall | exact Hr ].
Defined.

(** X8.  Through a hand-written old-style class, assigning a value of the
    member's type to a field and then reading the field gives that value
    back.  The assignment keeps the instance well formed, changes no other
    member of it and no other host object. *)
Theorem old_style_write_then_read (name : string) (P : type) (i : nat)
    (d : member) (self : py.loc) (h : py.heap) (p : object) (v : value) :
  (name, P) ∈ hanapy.packets →
  members_of (Old P) !! i = Some d →
  h !! self = Some (py.py_instance p) → o_type p = Old P → well_formed p →
  decltype v = m_type d →
  ∃ m c_old h1 p' r h2,
    hanapy.PYBIND11_MODULE = Ok m ∧
    py.bindings_of (Old P) m = [c_old] ∧
    py.setattr c_old (m_name d) v self h = Ok h1 ∧
    h1 !! self = Some (py.py_instance p') ∧
    well_formed p' ∧
    read_member i p' = Some v ∧
    (∀ j, j ≠ i → read_member j p' = read_member j p) ∧
    (∀ l, l ≠ self → h1 !! l = h !! l) ∧
    py.getattr c_old (m_name d) self h1 = Ok (r, h2) ∧
    h2 !! r = Some (py.py_builtin v).
Proof.
  intros Hx Hd Hself HP Hwf Hv.
  pose proof (old_style_class _ _ Hx) as Hc.
  pose proof (packets_types _ _ Hx) as HP'.
  rewrite <- HP in Hd.
  destruct (write_member_spec p i d v Hwf Hd Hv) as (Hwf' & Hty & Hrd & Hfr).
  rewrite HP in Hd.
  set (p' := write_member i v p) in *.
  set (h1 := <[self := py.py_instance p']> h).
  set (a := py.alloc (py.py_builtin v) h1).
  eexists registered, _, h1, p', a.1, a.2.
  split; [ apply PYBIND11_MODULE_Ok | ]. split; [ exact Hc | ]. clear Hc.
  assert (Hprop : py.find_property
                    {| py.tp_name := name +:+ "_old"; py.tp_type := Old P;
                       py.tp_attrs := old_style_attrs (Old P) |} (m_name d)
                  = Some i)
    by (by apply (find_old_style_property P)).
  assert (Hself1 : h1 !! self = Some (py.py_instance p'))
    by apply lookup_insert_eq.
  split.
  { unfold py.setattr. rewrite Hprop, Hself. simpl.
    by rewrite bool_decide_eq_true_2. }
  split; [ exact Hself1 | ]. split; [ exact Hwf' | ].
  split; [ exact Hrd | ]. split; [ exact Hfr | ].
  split; [ intros l Hl; by apply lookup_insert_ne | ].
  split; [ | apply alloc_lookup_new ].
  unfold py.getattr. rewrite Hprop. unfold py.dispatch.
  rewrite Hself1. simpl. rewrite bool_decide_eq_true_2 by congruence.
  rewrite Hrd. rewrite insert_id by done. reflexivity.
Qed.

(** Writing [9] to [id] of a [some_packet_old] holding [(3, 5)]. *)
Lemma old_style_write_then_read_witness :
  let p := {| o_type := SomePacketOld;
              o_members := [v_int32 3; v_float 5] |} in
  ∃ m c_old h1 r h2,
    hanapy.PYBIND11_MODULE = Ok m ∧
    py.bindings_of SomePacketOld m = [c_old] ∧
    py.setattr c_old "id" (v_int32 9) 1%positive
      {[ 1%positive := py.py_instance p ]} = Ok h1 ∧
    py.getattr c_old "id" 1%positive h1 = Ok (r, h2) ∧
    h2 !! r = Some (py.py_builtin (v_int32 9)).
Proof.
  intros p.
  destruct (old_style_write_then_read "some_packet" SomePacket 0%nat
              {| m_type := int32_t; m_name := "id" |} 1%positive
              {[ 1%positive := py.py_instance p ]} p (v_int32 9))
    as (m & c_old & h1 & p' & r & h2 & Hm & Hc & Hset & _ & _ & _ & _ & _
        & Hget & Hr).
  - by_computation.
  - reflexivity.
  - apply lookup_singleton_eq.
  - reflexivity.
  - reflexivity.
  - reflexivity.
  - exists m, c_old, h1, r, h2.
    split; [ exact Hm | ]. split; [ exact Hc | ]. split; [ exact Hset | ].
    split; [ exact Hget | exact Hr ].
Defined.

(** X9.  For every field, reading it from an old-style instance through the
    hand-written property and from a generated instance with the same member
    values through the generated method hands out the same value. *)
Theorem old_style_and_generated_reads_agree (name : string) (P : type)
    (i : nat) (d : member) (self self_old : py.loc) (h : py.heap)
    (p p_old : object) :
  (name, P) ∈ hanapy.packets →
  members_of P !! i = Some d →
  h !! self = Some (py.py_instance p) → o_type p = P → well_formed p →
  h !! self_old = Some (py.py_instance p_old) → o_type p_old = Old P →
  o_members p_old = o_members p →
  ∃ m c c_old v r h' r_old h_old,
    hanapy.PYBIND11_MODULE = Ok m ∧
    py.bindings_of P m = [c] ∧
    py.bindings_of (Old P) m = [c_old] ∧
    py.call_method c (m_name d) self h = Ok (r, h') ∧
    h' !! r = Some (py.py_builtin v) ∧
    py.getattr c_old (m_name d) self_old h = Ok (r_old, h_old) ∧
    h_old !! r_old = Some (py.py_builtin v).
Proof.
  intros Hx Hd Hself HP Hwf Hself_old HP_old Hmem.
  destruct (generated_packet_class _ _ Hx) as (c & _ & Hc & ->).
  pose proof (old_style_class _ _ Hx) as Hc_old.
  pose proof (packets_types _ _ Hx) as HP'.
  destruct (generated_accessor_call name P i d self h p)
    as (v & Hv & _ & Hcall);
    [ exact Hx | exact Hd | exact Hself | exact HP | exact Hwf | ].
  set (a := py.alloc (py.py_builtin v) h).
  eexists registered, _, _, v, a.1, a.2, a.1, a.2.
  split; [ apply PYBIND11_MODULE_Ok | ]. split; [ exact Hc | ].
  split; [ exact Hc_old | ]. clear Hc Hc_old.
  split; [ rewrite Hcall; reflexivity | ].
  split; [ apply alloc_lookup_new | ].
  split; [ | apply alloc_lookup_new ].
  assert (Hd_old : members_of (Old P) !! i = Some d).
  { destruct HP' as [-> | ->]; exact Hd. }
  unfold py.getattr.
  rewrite (find_old_style_property P i d) by done.
  unfold py.dispatch. rewrite Hself_old. simpl.
  rewrite bool_decide_eq_true_2 by done.
  unfold read_member in *. rewrite Hmem, Hv.
  rewrite insert_id by done. reflexivity.
Qed.

(** Reading [some_payload] from a [some_packet] and a [some_packet_old] that
    both hold [(3, 5)]. *)
Lemma old_style_and_generated_reads_agree_witness :
  let h : py.heap :=
    {[ 1%positive :=
         py.py_instance {| o_type := SomePacket;
                           o_members := [v_int32 3; v_float 5] |};
       2%positive :=
         py.py_instance {| o_type := SomePacketOld;
                           o_members := [v_int32 3; v_float 5] |} ]} in
  ∃ m c c_old v r h' r_old h_old,
    hanapy.PYBIND11_MODULE = Ok m ∧
    py.bindings_of SomePacket m = [c] ∧
    py.bindings_of SomePacketOld m = [c_old] ∧
    py.call_method c "some_payload" 1%positive h = Ok (r, h') ∧
    h' !! r = Some (py.py_builtin v) ∧
    py.getattr c_old "some_payload" 2%positive h = Ok (r_old, h_old) ∧
    h_old !! r_old = Some (py.py_builtin v).
Proof.
  intros h.
  apply (old_style_and_generated_reads_agree "some_packet" SomePacket 1%nat
           {| m_type := float; m_name := "some_payload" |}
           1%positive 2%positive h
           {| o_type := SomePacket; o_members := [v_int32 3; v_float 5] |}
           {| o_type := SomePacketOld;
              o_members := [v_int32 3; v_float 5] |}).
  - by_computation.
  - reflexivity.
  - subst h. vm_compute. reflexivity.
  - reflexivity.
  - reflexivity.
  - subst h. vm_compute. reflexivity.
  - reflexivity.
  - reflexivity.
Defined.

(** X10.  A hand-written old-style class accepts exactly the listed
    constructor argument types, and an instance constructed from the host
    reads back, through the property named after the i-th field, the i-th
    constructor argument. *)
Theorem old_style_constructed_reads_back (name : string) (P : type)
    (i : nat) (d : member) (args : list value) (h : py.heap) :
  (name, P) ∈ hanapy.packets →
  members_of (Old P) !! i = Some d →
  decltype <$> args = m_type <$> members_of (Old P) →
  ∃ m c_old self h1 v r h2,
    hanapy.PYBIND11_MODULE = Ok m ∧
    py.bindings_of (Old P) m = [c_old] ∧
    (∀ args' h', succeeds (py.construct c_old args' h')
                 ↔ decltype <$> args' = m_type <$> members_of (Old P)) ∧
    py.construct c_old args h = Ok (self, h1) ∧
    h !! self = None ∧
    args !! i = Some v ∧
    py.getattr c_old (m_name d) self h1 = Ok (r, h2) ∧
    h2 !! r = Some (py.py_builtin v).
Proof.
  intros Hx Hd Hargs.
  pose proof (old_style_class _ _ Hx) as Hc.
  pose proof (packets_types _ _ Hx) as HP'.
  set (p0 := {| o_type := Old P; o_members := args |}).
  assert (Hwf : well_formed p0) by exact Hargs.
  destruct (well_formed_read p0 i d Hwf Hd) as (v & Hv & _).
  set (a := py.alloc (py.py_instance p0) h).
  set (b := py.alloc (py.py_builtin v) a.2).
  eexists registered, _, a.1, a.2, v, b.1, b.2.
  split; [ apply PYBIND11_MODULE_Ok | ]. split; [ exact Hc | ]. clear Hc.
  assert (Hctor : py.constructors
                    {| py.tp_name := name +:+ "_old"; py.tp_type := Old P;
                       py.tp_attrs := old_style_attrs (Old P) |}
                  = [m_type <$> members_of (Old P)]).
  { clear - HP'. destruct HP' as [-> | ->]; reflexivity. }
  split.
  { intros args' h'. unfold py.construct. rewrite Hctor.
    case_bool_decide as Hin.
    - apply list_elem_of_singleton in Hin. split; [ done | ].
      intros _. eexists. reflexivity.
    - split; [ by intros [? ?] | ].
      intros Heq. destruct Hin. by apply list_elem_of_singleton. }
  split.
  { unfold py.construct. rewrite Hctor, bool_decide_eq_true_2.
    - reflexivity.
    - by apply list_elem_of_singleton. }
  split; [ apply alloc_fresh | ]. split; [ exact Hv | ].
  split; [ | apply alloc_lookup_new ].
  unfold py.getattr. rewrite (find_old_style_property P i d) by done.
  assert (Ha : a.2 !! a.1 = Some (py.py_instance p0))
    by apply alloc_lookup_new.
  unfold py.dispatch. rewrite Ha. simpl.
  rewrite bool_decide_eq_true_2 by done. fold p0. rewrite Hv.
  rewrite insert_id by exact Ha. reflexivity.
Qed.

(** A [some_packet_old] built from [(3, 5)] hands out [3] as its [id]. *)
Lemma old_style_constructed_reads_back_witness :
  ∃ m c_old self h1 r h2,
    hanapy.PYBIND11_MODULE = Ok m ∧
    py.bindings_of SomePacketOld m = [c_old] ∧
    py.construct c_old [v_int32 3; v_float 5] ∅ = Ok (self, h1) ∧
    py.getattr c_old "id" self h1 = Ok (r, h2) ∧
    h2 !! r = Some (py.py_builtin (v_int32 3)).
Proof.
  destruct (old_style_constructed_reads_back "some_packet" SomePacket 0%nat
              {| m_type := int32_t; m_name := "id" |}
              [v_int32 3; v_float 5] ∅)
    as (m & c_old & self & h1 & v & r & h2 & Hm & Hc & _ & Hnew & _ & Hv
        & Hget & Hr).
  - by_computation.
  - reflexivity.
  - reflexivity.
  - apply (inj Some) in Hv. subst v. exists m, c_old, self, h1, r, h2.
    split; [ exact Hm | ]. split; [ exact Hc | ]. split; [ exact Hnew | ].
    split; [ exact Hget | exact Hr ].
Defined.

(** ** Order of the lists *)

Lemma cartesian_product_Permutation {A B} (xs xs' : list A)
    (ys ys' : list B) :
  xs ≡ₚ xs' → ys ≡ₚ ys' →
  hana.cartesian_product xs ys ≡ₚ hana.cartesian_product xs' ys'.
Proof.
  intros Hxs Hys.
  rewrite <- (cartesian_product_Permutation_l xs xs' ys') by done.
  clear Hxs. unfold hana.cartesian_product.
  induction xs as [|x xs IH]; [ done | ].
  cbn [mbind list_bind]. by rewrite IH, Hys.
Qed.

Lemma Forall_Permutation_iff {A} (Q : A → Prop) (l l' : list A) :
  l ≡ₚ l' → Forall Q l ↔ Forall Q l'.
Proof. intros Hl. by rewrite Hl. Qed.

(** X11.  The order of the [packets] list decides only the order of
    registration: for two lists with the same entries, the packet loop
    completes on one exactly when it completes on the other, and the modules
    they leave hold the same classes. *)
Theorem packet_loop_order_irrelevant (ps ps' : list (string * type))
    (m : py.module_) :
  ps ≡ₚ ps' →
  (succeeds (hanapy.hana_style_packets ps m)
   ↔ succeeds (hanapy.hana_style_packets ps' m)) ∧
  ∀ m1 m2, hanapy.hana_style_packets ps m = Ok m1 →
           hanapy.hana_style_packets ps' m = Ok m2 →
           py.doc m1 = py.doc m2 ∧ py.classes m1 ≡ₚ py.classes m2.
Proof.
  intros Hps. unfold succeeds, hanapy.hana_style_packets. split.
  - split; intros [m1 Hm1]; eexists;
      apply (for_each_step_Ok hanapy.bind_packet packet_class bind_packet_Ok);
      apply (for_each_step_Ok hanapy.bind_packet packet_class bind_packet_Ok)
        in Hm1 as (Hn & Ht & Hfr & _);
      (split; [ | split; [ | split; [ | reflexivity ] ] ]).
    + by rewrite <- Hps.
    + by rewrite <- Hps.
    + by rewrite <- Hps.
    + by rewrite Hps.
    + by rewrite Hps.
    + by rewrite Hps.
  - intros m1 m2
      (_ & _ & _ & ->)%(for_each_step_Ok hanapy.bind_packet packet_class
                          bind_packet_Ok)
      (_ & _ & _ & ->)%(for_each_step_Ok hanapy.bind_packet packet_class
                          bind_packet_Ok).
    unfold append_classes. simpl. split; [ done | ]. by rewrite Hps.
Qed.

(** The declared list and its reversal, on the empty module. *)
Lemma packet_loop_order_irrelevant_witness :
  succeeds (hanapy.hana_style_packets hanapy.packets hanapy.empty_module)
  ↔ succeeds (hanapy.hana_style_packets (reverse hanapy.packets)
                hanapy.empty_module).
Proof.
  apply (packet_loop_order_irrelevant hanapy.packets
           (reverse hanapy.packets) hanapy.empty_module).
  symmetry. apply reverse_Permutation.
Defined.

(** X12.  The order of the entries on either axis decides only the order of
    registration: for axes with the same entries, the tensor loop completes
    on one pair of axes exactly when it completes on the other, and the
    modules they leave hold the same classes. *)
Theorem tensor_loop_order_irrelevant (ds1 ds2 : list (string * Z))
    (ts1 ts2 : list (string * type)) (m : py.module_) :
  ds1 ≡ₚ ds2 → ts1 ≡ₚ ts2 →
  (succeeds (hanapy.hana_style_tensors ds1 ts1 m)
   ↔ succeeds (hanapy.hana_style_tensors ds2 ts2 m)) ∧
  ∀ m1 m2, hanapy.hana_style_tensors ds1 ts1 m = Ok m1 →
           hanapy.hana_style_tensors ds2 ts2 m = Ok m2 →
           py.doc m1 = py.doc m2 ∧ py.classes m1 ≡ₚ py.classes m2.
Proof.
  intros Hds Hts.
  pose proof (cartesian_product_Permutation _ _ _ _ Hds Hts) as Hprod.
  unfold succeeds, hanapy.hana_style_tensors. split.
  - split; intros [m1 Hm1]; eexists;
      apply (for_each_step_Ok hanapy.bind_tensor tensor_class bind_tensor_Ok);
      apply (for_each_step_Ok hanapy.bind_tensor tensor_class bind_tensor_Ok)
        in Hm1 as (Hn & Ht & Hfr & _);
      (split; [ | split; [ | split; [ | reflexivity ] ] ]).
    + by rewrite <- Hprod.
    + by rewrite <- Hprod.
    + by rewrite <- Hprod.
    + by rewrite Hprod.
    + by rewrite Hprod.
    + by rewrite Hprod.
  - intros m1 m2
      (_ & _ & _ & ->)%(for_each_step_Ok hanapy.bind_tensor tensor_class
                          bind_tensor_Ok)
      (_ & _ & _ & ->)%(for_each_step_Ok hanapy.bind_tensor tensor_class
                          bind_tensor_Ok).
    unfold append_classes. simpl. split; [ done | ]. by rewrite Hprod.
Qed.

(** The declared axes with the scalar types swapped, on the module the loop
    starts from. *)
Lemma tensor_loop_order_irrelevant_witness :
  succeeds (hanapy.hana_style_tensors hanapy.ds hanapy.ts
              registered_before_tensors)
  ↔ succeeds (hanapy.hana_style_tensors (reverse hanapy.ds)
                (reverse hanapy.ts) registered_before_tensors).
Proof.
  apply (tensor_loop_order_irrelevant hanapy.ds (reverse hanapy.ds)
           hanapy.ts (reverse hanapy.ts) registered_before_tensors);
    symmetry; apply reverse_Permutation.
Defined.
